(** * Cart service of the QKart backend (src/services/cart.service.js)

    Shallow embedding of the five cart service operations.  The MongoDB
    collections the service touches (carts, products and the users saved
    by [checkout]) form the state [DB]; every operation runs in a small
    state-and-exception monad [M]: an [ApiError] thrown by the service
    aborts the rest of the operation but keeps every write already made
    (there are no transactions).  Money and quantities are integers. *)

From Stdlib Require Import String ZArith List Lia Bool.
Import ListNotations.
Open Scope Z_scope.

(** ** Data model (models/product, models/cart, models/user) *)

Record Product := mkProduct { _id : string; cost : Z }.

Record CartItem := mkCartItem { product : Product; quantity : Z }.

Record Cart := mkCart {
  email : string;
  cartItems : list CartItem;
  paymentOption : string }.

(** A user document as the service sees it.  [hasSetNonDefaultAddress] is
    the answer of the user model's method of the same name. *)
Record User := mkUser {
  user_email : string;
  walletMoney : Z;
  hasSetNonDefaultAddress : bool }.

Record DB := mkDB {
  carts : list Cart;
  products : list Product;
  users : list User }.

(** http-status codes used by the service *)
Definition BAD_REQUEST : Z := 400.
Definition NOT_FOUND : Z := 404.
Definition INTERNAL_SERVER_ERROR : Z := 500.

(** Errors: the service's [ApiError] and the database driver's own error
    (duplicate key on [Cart.create]). *)
Inductive Error :=
| ApiError (statusCode : Z) (message : string)
| MongoError (message : string).

(** [config.default_payment_option] *)
Definition default_payment_option : string := "PAYMENT_OPTION_DEFAULT".

(** ** The state-and-exception monad *)

Inductive result (A : Type) :=
| Ok (a : A)
| Throw (e : Error).
Arguments Ok {A} a.
Arguments Throw {A} e.

Definition M (A : Type) := DB -> result A * DB.

Definition ret {A} (a : A) : M A := fun db => (Ok a, db).

Definition throw {A} (e : Error) : M A := fun db => (Throw e, db).

Definition bind {A B} (m : M A) (k : A -> M B) : M B :=
  fun db =>
    match m db with
    | (Ok a, db') => k a db'
    | (Throw e, db') => (Throw e, db')
    end.

(** [try { m } catch (err) { h err }] *)
Definition try_catch {A} (m : M A) (h : Error -> M A) : M A :=
  fun db =>
    match m db with
    | (Ok a, db') => (Ok a, db')
    | (Throw e, db') => h e db'
    end.

Notation "x <- m ;; k" := (bind m (fun x => k))
  (at level 61, m at next level, right associativity).

(** ** Collection primitives *)

(** [Model.findOne(filter)]: the first document matching the filter. *)
Definition find_cart (e : string) (cs : list Cart) : option Cart :=
  find (fun c => String.eqb (email c) e) cs.

Definition find_product (pid : string) (ps : list Product) : option Product :=
  find (fun p => String.eqb (_id p) pid) ps.

Definition find_user (e : string) (us : list User) : option User :=
  find (fun u => String.eqb (user_email u) e) us.

(** [doc.save()]: overwrite the stored document with the same key, or
    insert it when it is not stored yet. *)
Fixpoint upsert {A} (key : A -> string) (x : A) (l : list A) : list A :=
  match l with
  | [] => [x]
  | y :: l' => if String.eqb (key y) (key x) then x :: l' else y :: upsert key x l'
  end.

Definition Cart_findOne (e : string) : M (option Cart) :=
  fun db => (Ok (find_cart e (carts db)), db).

Definition Product_findOne (pid : string) : M (option Product) :=
  fun db => (Ok (find_product pid (products db)), db).

(** [Cart.create(doc)]: the cart schema has a unique index on [email]. *)
Definition Cart_create (c : Cart) : M Cart :=
  fun db =>
    match find_cart (email c) (carts db) with
    | Some _ => (Throw (MongoError "E11000 duplicate key error"), db)
    | None => (Ok c, mkDB (carts db ++ [c]) (products db) (users db))
    end.

Definition cart_save (c : Cart) : M unit :=
  fun db => (Ok tt, mkDB (upsert email c (carts db)) (products db) (users db)).

Definition user_save (u : User) : M unit :=
  fun db => (Ok tt, mkDB (carts db) (products db) (upsert user_email u (users db))).

(** ** Array helpers *)

(** The scan shared by add, update and delete:
    [for (i = 0; i < items.length; i++) if (productId == items[i].product._id) productIndex = i;]
    The last matching index wins; [-1] when nothing matches. *)
Fixpoint scan_from (productId : string) (items : list CartItem) (i productIndex : Z) : Z :=
  match items with
  | [] => productIndex
  | it :: rest =>
      scan_from productId rest (i + 1)
        (if String.eqb productId (_id (product it)) then i else productIndex)
  end.

Definition find_product_index (productId : string) (items : list CartItem) : Z :=
  scan_from productId items 0 (-1).

(** [items[n].quantity = q] *)
Fixpoint set_quantity_at (n : nat) (q : Z) (items : list CartItem) : list CartItem :=
  match items, n with
  | [], _ => []
  | it :: rest, O => mkCartItem (product it) q :: rest
  | it :: rest, S n' => it :: set_quantity_at n' q rest
  end.

(** [items.splice(n, 1)] *)
Fixpoint splice1 {A} (n : nat) (l : list A) : list A :=
  match l, n with
  | [], _ => []
  | _ :: rest, O => rest
  | x :: rest, S n' => x :: splice1 n' rest
  end.

(** [total += items[i].product.cost * items[i].quantity], from [total = 0] *)
Fixpoint cart_total_from (total : Z) (items : list CartItem) : Z :=
  match items with
  | [] => total
  | it :: rest => cart_total_from (total + cost (product it) * quantity it) rest
  end.

Definition cart_total (items : list CartItem) : Z := cart_total_from 0 items.

Definition with_items (c : Cart) (items : list CartItem) : Cart :=
  mkCart (email c) items (paymentOption c).

Definition with_wallet (u : User) (w : Z) : User :=
  mkUser (user_email u) w (hasSetNonDefaultAddress u).

(** ** The service operations *)

Definition getCartByUser (user : User) : M Cart :=
  cart <- Cart_findOne (user_email user) ;;
  match cart with
  | None => throw (ApiError NOT_FOUND "User does not have a cart")
  | Some cart => ret cart
  end.

Definition addProductToCart (user : User) (productId : string) (quantity : Z) : M Cart :=
  found <- Cart_findOne (user_email user) ;;
  cart <- match found with
          | Some cart => ret cart
          | None =>
              try_catch
                (Cart_create (mkCart (user_email user) [] default_payment_option))
                (fun _ => throw (ApiError INTERNAL_SERVER_ERROR
                   "User cart creation failed because user already have a cart"))
          end ;;
  (* the later [cart == null] check cannot fire: [cart] is a document here *)
  let productIndex := find_product_index productId (cartItems cart) in
  if productIndex =? -1 then
    product <- Product_findOne productId ;;
    match product with
    | None => throw (ApiError BAD_REQUEST "Product doesn't exist in database")
    | Some product =>
        let cart := with_items cart
                      (cartItems cart ++ [mkCartItem product quantity]) in
        _ <- cart_save cart ;;
        ret cart
    end
  else
    throw (ApiError BAD_REQUEST
      "Product already in cart. use the cart sidebar to update or remove product from cart").

Definition updateProductInCart (user : User) (productId : string) (quantity : Z) : M Cart :=
  found <- Cart_findOne (user_email user) ;;
  match found with
  | None => throw (ApiError BAD_REQUEST
      "User does not have a cart. Use POST to create cart and add a product")
  | Some cart =>
      product <- Product_findOne productId ;;
      match product with
      | None => throw (ApiError BAD_REQUEST "Product doesn't exist in database")
      | Some _ =>
          let productIndex := find_product_index productId (cartItems cart) in
          if productIndex =? -1 then
            throw (ApiError BAD_REQUEST "Product not in cart")
          else
            let cart := with_items cart
                (set_quantity_at (Z.to_nat productIndex) quantity (cartItems cart)) in
            _ <- cart_save cart ;;
            ret cart
      end
  end.

Definition deleteProductFromCart (user : User) (productId : string) : M Cart :=
  found <- Cart_findOne (user_email user) ;;
  match found with
  | None => throw (ApiError BAD_REQUEST "User does not have a cart")
  | Some cart =>
      let productIndex := find_product_index productId (cartItems cart) in
      if productIndex =? -1 then
        throw (ApiError BAD_REQUEST "Product not in cart")
      else
        let cart := with_items cart (splice1 (Z.to_nat productIndex) (cartItems cart)) in
        _ <- cart_save cart ;;
        ret cart
  end.

(** [checkout] mutates the [user] object it receives; the mutated user is
    returned here so that callers holding it observe the new balance. *)
Definition checkout (user : User) : M User :=
  found <- Cart_findOne (user_email user) ;;
  match found with
  | None => throw (ApiError NOT_FOUND "User does not have a cart")
  | Some cart =>
      if Nat.eqb (length (cartItems cart)) 0 then
        throw (ApiError BAD_REQUEST "Cart is empty")
      else if negb (hasSetNonDefaultAddress user) then
        throw (ApiError BAD_REQUEST "Address not set")
      else
        let total := cart_total (cartItems cart) in
        if total >? walletMoney user then
          throw (ApiError BAD_REQUEST "User has insufficient money to process")
        else
          let user := with_wallet user (walletMoney user - total) in
          let cart := with_items cart [] in
          _ <- user_save user ;;
          _ <- cart_save cart ;;
          ret user
  end.

(** ** Sample data *)

Definition p1 : Product := mkProduct "p1" 50.
Definition p2 : Product := mkProduct "p2" 30.
Definition alice : User := mkUser "alice@qkart" 200 true.
Definition alice_cart : Cart :=
  mkCart "alice@qkart" [mkCartItem p1 2; mkCartItem p2 1] default_payment_option.
Definition db_alice : DB := mkDB [alice_cart] [p1; p2] [alice].
Definition db_empty : DB := mkDB [] [] [].

Example checkout_alice :
  checkout alice db_alice =
  (Ok (mkUser "alice@qkart" 70 true),
   mkDB [mkCart "alice@qkart" [] default_payment_option] [p1; p2]
        [mkUser "alice@qkart" 70 true]).
Proof. reflexivity. Qed.

Example delete_alice :
  fst (deleteProductFromCart alice "p1" db_alice) =
  Ok (mkCart "alice@qkart" [mkCartItem p2 1] default_payment_option).
Proof. reflexivity. Qed.

(** ** General lemmas *)

Definition ids (items : list CartItem) : list string :=
  map (fun it => _id (product it)) items.

Lemma find_upsert {A} (key : A -> string) (x : A) (l : list A) :
  find (fun y => String.eqb (key y) (key x)) (upsert key x l) = Some x.
Proof.
  induction l as [|y l IH]; simpl.
  - now rewrite String.eqb_refl.
  - destruct (String.eqb (key y) (key x)) eqn:E; simpl.
    + now rewrite String.eqb_refl.
    + now rewrite E.
Qed.

Lemma Forall_upsert {A} (P : A -> Prop) (key : A -> string) (x : A) (l : list A) :
  Forall P l -> P x -> Forall P (upsert key x l).
Proof.
  intros HF Hx; induction HF as [|y l Hy HF IH]; simpl.
  - constructor; [exact Hx | constructor].
  - destruct (String.eqb (key y) (key x)); constructor; auto.
Qed.

Lemma scan_from_nonneg pid items : forall i acc,
  0 <= i -> (0 <= acc \/ In pid (ids items)) -> 0 <= scan_from pid items i acc.
Proof.
  induction items as [|it rest IH]; simpl; intros i acc Hi H.
  - destruct H as [H|[]]; exact H.
  - apply IH; [lia|].
    destruct (String.eqb pid (_id (product it))) eqn:E.
    + left; lia.
    + destruct H as [H|[H|H]]; auto.
      subst; rewrite String.eqb_refl in E; discriminate.
Qed.

Lemma scan_from_absent pid items : forall i acc,
  ~ In pid (ids items) -> scan_from pid items i acc = acc.
Proof.
  induction items as [|it rest IH]; simpl; intros i acc H; [reflexivity|].
  destruct (String.eqb pid (_id (product it))) eqn:E.
  - apply String.eqb_eq in E; exfalso; apply H; left; auto.
  - apply IH; intros Hin; apply H; right; exact Hin.
Qed.

Lemma scan_from_app pid l1 l2 : forall i acc,
  scan_from pid (l1 ++ l2) i acc
  = scan_from pid l2 (i + Z.of_nat (length l1)) (scan_from pid l1 i acc).
Proof.
  induction l1 as [|it l1 IH]; simpl; intros i acc.
  - now rewrite Z.add_0_r.
  - rewrite IH; f_equal; lia.
Qed.

Lemma find_product_index_absent pid items :
  ~ In pid (ids items) -> find_product_index pid items = -1.
Proof. intros H; apply scan_from_absent; exact H. Qed.

Lemma find_product_index_present pid items :
  In pid (ids items) -> 0 <= find_product_index pid items.
Proof. intros H; apply scan_from_nonneg; auto; lia. Qed.

Lemma find_product_index_minus1 pid items :
  find_product_index pid items = -1 -> ~ In pid (ids items).
Proof.
  intros H Hin; pose proof (find_product_index_present pid items Hin); lia.
Qed.

(** the index found when the product appears exactly once *)
Lemma find_product_index_unique pid pre it post :
  _id (product it) = pid -> ~ In pid (ids (pre ++ post)) ->
  find_product_index pid (pre ++ it :: post) = Z.of_nat (length pre).
Proof.
  intros Hid Hn; unfold find_product_index; unfold ids in Hn;
  rewrite map_app, in_app_iff in Hn.
  rewrite scan_from_app, (scan_from_absent pid pre) by (intro; apply Hn; auto).
  simpl; rewrite Hid, String.eqb_refl.
  rewrite scan_from_absent by (intro; apply Hn; auto); lia.
Qed.

Lemma find_product_id pid ps p :
  find_product pid ps = Some p -> _id p = pid.
Proof.
  unfold find_product; intros H; apply find_some in H.
  destruct H as [_ H]; apply String.eqb_eq in H; exact H.
Qed.

Lemma find_cart_email e cs c :
  find_cart e cs = Some c -> email c = e.
Proof.
  unfold find_cart; intros H; apply find_some in H.
  destruct H as [_ H]; apply String.eqb_eq in H; exact H.
Qed.

Lemma find_cart_In e cs c : find_cart e cs = Some c -> In c cs.
Proof. unfold find_cart; intros H; apply find_some in H; tauto. Qed.

Lemma ids_set_quantity_at n q items :
  ids (set_quantity_at n q items) = ids items.
Proof.
  revert n; induction items as [|it rest IH]; intros [|n]; simpl; auto.
  now rewrite IH.
Qed.

Lemma ids_splice1 n items : ids (splice1 n items) = splice1 n (ids items).
Proof.
  revert n; induction items as [|it rest IH]; intros [|n]; simpl; auto.
  now rewrite IH.
Qed.

Lemma In_splice1 {A} n (l : list A) x : In x (splice1 n l) -> In x l.
Proof.
  revert n; induction l as [|y l IH]; intros [|n]; simpl; auto.
  intros [H|H]; [left; exact H | right; eapply IH; exact H].
Qed.

Lemma NoDup_splice1 {A} n (l : list A) : NoDup l -> NoDup (splice1 n l).
Proof.
  revert n; induction l as [|y l IH]; intros [|n] H; simpl; auto.
  - inversion H; auto.
  - inversion H as [|? ? Hy Hl]; subst.
    constructor; auto.
    intros Hin; apply Hy; eapply In_splice1; eauto.
Qed.

(** ** Checkout *)

(** Unfolding of [checkout] once a cart is found. *)
Lemma checkout_found user db cart :
  find_cart (user_email user) (carts db) = Some cart ->
  checkout user db =
  (if Nat.eqb (length (cartItems cart)) 0 then
     (Throw (ApiError BAD_REQUEST "Cart is empty"), db)
   else if negb (hasSetNonDefaultAddress user) then
     (Throw (ApiError BAD_REQUEST "Address not set"), db)
   else if cart_total (cartItems cart) >? walletMoney user then
     (Throw (ApiError BAD_REQUEST "User has insufficient money to process"), db)
   else
     let u' := with_wallet user (walletMoney user - cart_total (cartItems cart)) in
     (Ok u', mkDB (upsert email (with_items cart []) (carts db)) (products db)
                  (upsert user_email u' (users db)))).
Proof.
  intros H; unfold checkout, bind, Cart_findOne; simpl; rewrite H.
  destruct (Nat.eqb _ _); [reflexivity|].
  destruct (negb _); [reflexivity|].
  destruct (_ >? _); reflexivity.
Qed.

(** C1: with a non-empty cart, the address check passing and a balance
    covering the sum of cost times quantity, checkout succeeds, debits the
    wallet by exactly that sum (in the returned and in the saved user) and
    saves the cart with an empty item list: the cart document is kept. *)
Theorem checkout_success user db cart :
  find_cart (user_email user) (carts db) = Some cart ->
  cartItems cart <> [] ->
  hasSetNonDefaultAddress user = true ->
  cart_total (cartItems cart) <= walletMoney user ->
  exists u' db',
    checkout user db = (Ok u', db') /\
    walletMoney u' = walletMoney user - cart_total (cartItems cart) /\
    find_user (user_email user) (users db') = Some u' /\
    find_cart (user_email user) (carts db') = Some (with_items cart []) /\
    products db' = products db.
Proof.
  intros Hf Hne Ha Hb.
  rewrite (checkout_found user db cart Hf).
  destruct (cartItems cart) as [|it rest] eqn:Ei; [congruence|].
  simpl Nat.eqb; cbv iota; rewrite Ha; simpl negb; cbv iota.
  replace (cart_total (it :: rest) >? walletMoney user) with false
    by (symmetry; rewrite Z.gtb_ltb; apply Z.ltb_ge; lia).
  eexists _, _; split; [reflexivity|].
  split; [reflexivity|]; split; [|split; [|reflexivity]]; simpl.
  - exact (find_upsert user_email _ _).
  - pose proof (find_cart_email _ _ _ Hf) as He.
    unfold find_cart; rewrite <- He.
    apply (find_upsert email (with_items cart [])).
Qed.

Lemma checkout_success_witness :
  exists u' db',
    checkout alice db_alice = (Ok u', db') /\
    walletMoney u' = walletMoney alice - cart_total (cartItems alice_cart) /\
    find_user (user_email alice) (users db') = Some u' /\
    find_cart (user_email alice) (carts db') = Some (with_items alice_cart []) /\
    products db' = products db_alice.
Proof.
  apply (checkout_success alice db_alice alice_cart);
    [reflexivity | discriminate | reflexivity | vm_compute; discriminate].
Defined.

(** C5: a successful checkout never leaves a negative balance, in the
    returned user and in the saved one. *)
Theorem checkout_wallet_nonneg user db u' db' :
  0 <= walletMoney user ->
  checkout user db = (Ok u', db') ->
  0 <= walletMoney u' /\ find_user (user_email user) (users db') = Some u'.
Proof.
  intros Hw H.
  destruct (find_cart (user_email user) (carts db)) as [cart|] eqn:Hf.

Ltac split_ifs :=
  repeat match goal with
         | |- context [if ?b then _ else _] => destruct b
         | |- context [match find_product ?i ?ps with _ => _ end] =>
             destruct (find_product i ps)
         end.
  - rewrite (checkout_found user db cart Hf) in H.
    destruct (Nat.eqb _ _); [discriminate|].
    destruct (negb _); [discriminate|].
    destruct (cart_total (cartItems cart) >? walletMoney user) eqn:Eg; [discriminate|].
    rewrite Z.gtb_ltb, Z.ltb_ge in Eg.
    injection H as <- <-; split; simpl; [lia|].
    exact (find_upsert user_email _ _).
  - unfold checkout, bind, Cart_findOne in H; simpl in H; rewrite Hf in H; discriminate.
Qed.

Lemma checkout_wallet_nonneg_witness :
  0 <= walletMoney alice /\
  0 <= walletMoney (with_wallet alice 70) /\
  find_user (user_email alice) (users (snd (checkout alice db_alice)))
    = Some (with_wallet alice 70).
Proof.
  split; [vm_compute; discriminate|].
  apply (checkout_wallet_nonneg alice db_alice _ (snd (checkout alice db_alice)));
    [vm_compute; discriminate | reflexivity].
Defined.

(** C6: when the user's cart exists, checkout fails with 400 "Cart is empty"
    exactly when the item list is empty (a non-empty cart never gets that
    error), and in that case nothing is written. *)
Theorem checkout_empty_cart user db cart :
  find_cart (user_email user) (carts db) = Some cart ->
  (fst (checkout user db) = Throw (ApiError BAD_REQUEST "Cart is empty")
   <-> cartItems cart = []) /\
  (cartItems cart = [] ->
   checkout user db = (Throw (ApiError BAD_REQUEST "Cart is empty"), db)).
Proof.
  intros Hf; rewrite (checkout_found user db cart Hf).
  destruct (cartItems cart) as [|it rest]; simpl Nat.eqb; cbv iota.
  - split; [split; reflexivity | reflexivity].
  - split; [|discriminate].
    split; [|discriminate].
    destruct (negb _); [simpl; intros H; inversion H; discriminate|].
    destruct (_ >? _); simpl; intros H; inversion H; discriminate.
Qed.

Definition bob : User := mkUser "bob@qkart" 0 true.
Definition bob_cart : Cart := mkCart "bob@qkart" [] default_payment_option.
Definition db_bob : DB := mkDB [bob_cart] [p1; p2] [bob].

Lemma checkout_empty_cart_witness :
  (fst (checkout bob db_bob) = Throw (ApiError BAD_REQUEST "Cart is empty")
   <-> cartItems bob_cart = []) /\
  (cartItems bob_cart = [] ->
   checkout bob db_bob = (Throw (ApiError BAD_REQUEST "Cart is empty"), db_bob)).
Proof. apply (checkout_empty_cart bob db_bob bob_cart); reflexivity. Defined.

(** C10, as stated: a cart total equal to the balance does not make
    checkout succeed on its own.  Bob's cart is empty, its total 0 equals
    his balance 0, and checkout throws 400 "Cart is empty". *)
Lemma checkout_exact_balance_counterexample :
  cart_total (cartItems bob_cart) = walletMoney bob /\
  fst (checkout bob db_bob) = Throw (ApiError BAD_REQUEST "Cart is empty").
Proof. split; reflexivity. Qed.

(** C10, amended: for a cart that exists and is non-empty and a user whose
    address check passes, a total exactly equal to the balance is accepted
    (the comparison is strict) and leaves a balance of exactly zero. *)
Theorem checkout_exact_balance user db cart :
  find_cart (user_email user) (carts db) = Some cart ->
  cartItems cart <> [] ->
  hasSetNonDefaultAddress user = true ->
  cart_total (cartItems cart) = walletMoney user ->
  exists u' db',
    checkout user db = (Ok u', db') /\ walletMoney u' = 0 /\
    find_user (user_email user) (users db') = Some u'.
Proof.
  intros Hf Hne Ha Heq.
  rewrite (checkout_found user db cart Hf).
  destruct (cartItems cart) as [|it rest] eqn:Ei; [congruence|].
  simpl Nat.eqb; cbv iota; rewrite Ha; simpl negb; cbv iota.
  replace (cart_total (it :: rest) >? walletMoney user) with false
    by (symmetry; rewrite Z.gtb_ltb; apply Z.ltb_ge; lia).
  eexists _, _; split; [reflexivity|]; split; simpl; [lia|].
  exact (find_upsert user_email _ _).
Qed.

Definition carol : User := mkUser "carol@qkart" 130 true.
Definition carol_cart : Cart :=
  mkCart "carol@qkart" [mkCartItem p1 2; mkCartItem p2 1] default_payment_option.
Definition db_carol : DB := mkDB [carol_cart] [p1; p2] [carol].

Lemma checkout_exact_balance_witness :
  exists u' db',
    checkout carol db_carol = (Ok u', db') /\ walletMoney u' = 0 /\
    find_user (user_email carol) (users db') = Some u'.
Proof.
  apply (checkout_exact_balance carol db_carol carol_cart);
    [reflexivity | discriminate | reflexivity | reflexivity].
Defined.

(** ** Adding, updating and deleting items *)

Definition empty_cart (user : User) : Cart :=
  mkCart (user_email user) [] default_payment_option.

Lemma add_no_cart user pid q db :
  find_cart (user_email user) (carts db) = None ->
  addProductToCart user pid q db =
  (let db1 := mkDB (carts db ++ [empty_cart user]) (products db) (users db) in
   match find_product pid (products db) with
   | None => (Throw (ApiError BAD_REQUEST "Product doesn't exist in database"), db1)
   | Some p =>
       let c := with_items (empty_cart user) [mkCartItem p q] in
       (Ok c, mkDB (upsert email c (carts db1)) (products db) (users db))
   end).
Proof.
  intros H; unfold addProductToCart, bind, try_catch, Cart_findOne, Cart_create.
  simpl; rewrite H; simpl; rewrite H.
  unfold Product_findOne; simpl.
  destruct (find_product pid (products db)); reflexivity.
Qed.

Lemma add_found user pid q db cart :
  find_cart (user_email user) (carts db) = Some cart ->
  addProductToCart user pid q db =
  (if find_product_index pid (cartItems cart) =? -1 then
     match find_product pid (products db) with
     | None => (Throw (ApiError BAD_REQUEST "Product doesn't exist in database"), db)
     | Some p =>
         let c := with_items cart (cartItems cart ++ [mkCartItem p q]) in
         (Ok c, mkDB (upsert email c (carts db)) (products db) (users db))
     end
   else
     (Throw (ApiError BAD_REQUEST
       "Product already in cart. use the cart sidebar to update or remove product from cart"),
      db)).
Proof.
  intros H; unfold addProductToCart, bind, Cart_findOne; simpl; rewrite H; simpl.
  destruct (_ =? -1); [|reflexivity].
  unfold Product_findOne; simpl.
  destruct (find_product pid (products db)); reflexivity.
Qed.

Lemma update_found user pid q db cart :
  find_cart (user_email user) (carts db) = Some cart ->
  updateProductInCart user pid q db =
  match find_product pid (products db) with
  | None => (Throw (ApiError BAD_REQUEST "Product doesn't exist in database"), db)
  | Some _ =>
      if find_product_index pid (cartItems cart) =? -1 then
        (Throw (ApiError BAD_REQUEST "Product not in cart"), db)
      else
        let c := with_items cart (set_quantity_at
                   (Z.to_nat (find_product_index pid (cartItems cart))) q (cartItems cart)) in
        (Ok c, mkDB (upsert email c (carts db)) (products db) (users db))
  end.
Proof.
  intros H; unfold updateProductInCart, bind, Cart_findOne, Product_findOne;
    simpl; rewrite H; simpl.
  destruct (find_product pid (products db)); [|reflexivity].
  destruct (_ =? -1); reflexivity.
Qed.

Lemma delete_found user pid db cart :
  find_cart (user_email user) (carts db) = Some cart ->
  deleteProductFromCart user pid db =
  (if find_product_index pid (cartItems cart) =? -1 then
     (Throw (ApiError BAD_REQUEST "Product not in cart"), db)
   else
     let c := with_items cart (splice1
                (Z.to_nat (find_product_index pid (cartItems cart))) (cartItems cart)) in
     (Ok c, mkDB (upsert email c (carts db)) (products db) (users db))).
Proof.
  intros H; unfold deleteProductFromCart, bind, Cart_findOne; simpl; rewrite H; simpl.
  destruct (_ =? -1); reflexivity.
Qed.

Lemma find_cart_upsert c e cs :
  email c = e -> find_cart e (upsert email c cs) = Some c.
Proof. intros <-; exact (find_upsert email c cs). Qed.

Lemma find_cart_app_none e cs c :
  find_cart e cs = None -> email c = e -> find_cart e (cs ++ [c]) = Some c.
Proof.
  unfold find_cart; induction cs as [|c' cs IH]; simpl; intros H He.
  - now rewrite He, String.eqb_refl.
  - destruct (String.eqb (email c') e); [discriminate|auto].
Qed.

(** C2, as stated: not every cart operation answers a missing cart with
    404.  With no cart stored, [updateProductInCart] throws 400. *)
Lemma no_cart_404_counterexample :
  find_cart (user_email alice) (carts db_empty) = None /\
  fst (updateProductInCart alice "p1" 1 db_empty) =
    Throw (ApiError BAD_REQUEST
      "User does not have a cart. Use POST to create cart and add a product") /\
  BAD_REQUEST <> NOT_FOUND.
Proof. split; [reflexivity | split; [reflexivity | discriminate]]. Qed.

(** C2, amended: for a user with no cart, [getCartByUser] and [checkout]
    throw 404, [updateProductInCart] and [deleteProductFromCart] throw 400,
    all without writing anything, and [addProductToCart] throws no 404: it
    creates the missing cart, which is stored afterwards whatever the
    outcome. *)
Theorem no_cart_errors user pid q db :
  find_cart (user_email user) (carts db) = None ->
  getCartByUser user db =
    (Throw (ApiError NOT_FOUND "User does not have a cart"), db) /\
  checkout user db =
    (Throw (ApiError NOT_FOUND "User does not have a cart"), db) /\
  updateProductInCart user pid q db =
    (Throw (ApiError BAD_REQUEST
      "User does not have a cart. Use POST to create cart and add a product"), db) /\
  deleteProductFromCart user pid db =
    (Throw (ApiError BAD_REQUEST "User does not have a cart"), db) /\
  (forall msg, fst (addProductToCart user pid q db) <> Throw (ApiError NOT_FOUND msg)) /\
  (exists c, find_cart (user_email user) (carts (snd (addProductToCart user pid q db)))
             = Some c).
Proof.
  intros H.
  split; [unfold getCartByUser, bind, Cart_findOne; simpl; now rewrite H|].
  split; [unfold checkout, bind, Cart_findOne; simpl; now rewrite H|].
  split; [unfold updateProductInCart, bind, Cart_findOne; simpl; now rewrite H|].
  split; [unfold deleteProductFromCart, bind, Cart_findOne; simpl; now rewrite H|].
  rewrite (add_no_cart user pid q db H).
  destruct (find_product pid (products db)) as [p|]; simpl.
  - split; [discriminate|].
    eexists; apply find_cart_upsert; reflexivity.
  - split; [intros msg Hm; inversion Hm; discriminate|].
    eexists; apply find_cart_app_none; [exact H | reflexivity].
Qed.

Lemma no_cart_errors_witness :
  find_cart (user_email alice) (carts db_empty) = None /\
  getCartByUser alice db_empty =
    (Throw (ApiError NOT_FOUND "User does not have a cart"), db_empty).
Proof.
  split; [reflexivity|].
  apply (no_cart_errors alice "p1" 1 db_empty); reflexivity.
Defined.

(** C3: adding a product already in the cart throws 400 and leaves the
    whole store, so the cart's item list, untouched. *)
Theorem add_duplicate_rejected user pid q db cart :
  find_cart (user_email user) (carts db) = Some cart ->
  In pid (ids (cartItems cart)) ->
  addProductToCart user pid q db =
  (Throw (ApiError BAD_REQUEST
     "Product already in cart. use the cart sidebar to update or remove product from cart"),
   db).
Proof.
  intros Hf Hin; rewrite (add_found user pid q db cart Hf).
  pose proof (find_product_index_present pid _ Hin).
  replace (find_product_index pid (cartItems cart) =? -1) with false
    by (symmetry; apply Z.eqb_neq; lia).
  reflexivity.
Qed.

Lemma add_duplicate_rejected_witness :
  addProductToCart alice "p2" 4 db_alice =
  (Throw (ApiError BAD_REQUEST
     "Product already in cart. use the cart sidebar to update or remove product from cart"),
   db_alice).
Proof.
  apply (add_duplicate_rejected alice "p2" 4 db_alice alice_cart);
    [reflexivity | simpl; auto].
Defined.

(** C9: with no cart for the user and an unknown product, the empty cart
    created by [addProductToCart] is stored before the 400 error is
    thrown: the failed call changes the store. *)
Theorem add_unknown_product_creates_cart user pid q db :
  find_cart (user_email user) (carts db) = None ->
  find_product pid (products db) = None ->
  addProductToCart user pid q db =
  (Throw (ApiError BAD_REQUEST "Product doesn't exist in database"),
   mkDB (carts db ++ [empty_cart user]) (products db) (users db)) /\
  find_cart (user_email user) (carts db ++ [empty_cart user]) = Some (empty_cart user).
Proof.
  intros Hc Hp; rewrite (add_no_cart user pid q db Hc), Hp.
  split; [reflexivity|].
  apply find_cart_app_none; [exact Hc | reflexivity].
Qed.

Lemma add_unknown_product_creates_cart_witness :
  addProductToCart alice "p9" 1 db_empty =
  (Throw (ApiError BAD_REQUEST "Product doesn't exist in database"),
   mkDB [empty_cart alice] [] []) /\
  find_cart (user_email alice) [empty_cart alice] = Some (empty_cart alice).
Proof.
  apply (add_unknown_product_creates_cart alice "p9" 1 db_empty); reflexivity.
Defined.

Lemma splice1_middle {A} (pre post : list A) x :
  splice1 (length pre) (pre ++ x :: post) = pre ++ post.
Proof. induction pre as [|y pre IH]; simpl; [reflexivity | now rewrite IH]. Qed.

(** C8: a product present exactly once is removed, the other items keeping
    their order, and the cart is saved; a product absent from the cart
    gives 400 and nothing is written. *)
Theorem delete_product user pid db cart :
  find_cart (user_email user) (carts db) = Some cart ->
  (forall pre it post,
     cartItems cart = pre ++ it :: post ->
     _id (product it) = pid ->
     ~ In pid (ids (pre ++ post)) ->
     exists db',
       deleteProductFromCart user pid db = (Ok (with_items cart (pre ++ post)), db') /\
       find_cart (user_email user) (carts db') = Some (with_items cart (pre ++ post))) /\
  (~ In pid (ids (cartItems cart)) ->
   deleteProductFromCart user pid db =
   (Throw (ApiError BAD_REQUEST "Product not in cart"), db)).
Proof.
  intros Hf; rewrite (delete_found user pid db cart Hf); split.
  - intros pre it post Hi Hid Hn.
    rewrite Hi, (find_product_index_unique pid pre it post Hid Hn).
    replace (Z.of_nat (length pre) =? -1) with false by (symmetry; apply Z.eqb_neq; lia).
    rewrite Nat2Z.id, splice1_middle.
    eexists; split; [reflexivity|]; simpl.
    apply find_cart_upsert; simpl; exact (find_cart_email _ _ _ Hf).
  - intros Hn; rewrite (find_product_index_absent pid _ Hn); reflexivity.
Qed.

Lemma delete_product_witness :
  find_cart (user_email alice) (carts db_alice) = Some alice_cart /\
  ~ In "p3"%string (ids (cartItems alice_cart)) /\
  deleteProductFromCart alice "p3" db_alice =
  (Throw (ApiError BAD_REQUEST "Product not in cart"), db_alice).
Proof.
  assert (Hn : ~ In "p3"%string (ids (cartItems alice_cart)))
    by (simpl; intros [H|[H|[]]]; discriminate).
  split; [reflexivity | split; [exact Hn|]].
  apply (delete_product alice "p3" db_alice alice_cart); [reflexivity | exact Hn].
Defined.

Lemma nth_error_set_quantity_at n q items : forall j,
  nth_error (set_quantity_at n q items) j =
  if Nat.eqb j n then option_map (fun it => mkCartItem (product it) q) (nth_error items j)
  else nth_error items j.
Proof.
  revert n; induction items as [|it rest IH]; intros n j.
  - destruct n, j; simpl; try destruct (Nat.eqb _ _); reflexivity.
  - destruct n as [|n], j as [|j]; simpl; try reflexivity.
    apply IH.
Qed.

Lemma length_set_quantity_at n q items :
  length (set_quantity_at n q items) = length items.
Proof.
  revert n; induction items as [|it rest IH]; intros [|n]; simpl; auto.
Qed.

Lemma scan_from_hit pid items : forall i acc,
  scan_from pid items i acc = acc \/
  exists k it, nth_error items k = Some it /\ _id (product it) = pid /\
               scan_from pid items i acc = i + Z.of_nat k.
Proof.
  induction items as [|it rest IH]; simpl; intros i acc; [left; reflexivity|].
  destruct (String.eqb pid (_id (product it))) eqn:E.
  - right; destruct (IH (i + 1) i) as [H|(k & it' & Hk & Hid & H)].
    + exists O, it; apply String.eqb_eq in E; repeat split; auto; simpl; lia.
    + exists (S k), it'; repeat split; auto; lia.
  - destruct (IH (i + 1) acc) as [H|(k & it' & Hk & Hid & H)]; [left; exact H|].
    right; exists (S k), it'; repeat split; auto; lia.
Qed.

(** the index found by the scan points at an item of that product *)
Lemma find_product_index_hit pid items :
  In pid (ids items) ->
  exists it, nth_error items (Z.to_nat (find_product_index pid items)) = Some it /\
             _id (product it) = pid.
Proof.
  intros Hin; pose proof (find_product_index_present pid items Hin) as Hp.
  unfold find_product_index in *.
  destruct (scan_from_hit pid items 0 (-1)) as [H|(k & it & Hk & Hid & H)]; [lia|].
  rewrite H; exists it; split; [|exact Hid].
  now replace (Z.to_nat (0 + Z.of_nat k)) with k by lia.
Qed.

Lemma scan_from_ge pid items i acc :
  acc < i -> acc <= scan_from pid items i acc.
Proof.
  intros Hlt; destruct (scan_from_hit pid items i acc) as [H|(k & it & _ & _ & H)]; lia.
Qed.

Lemma scan_from_last pid items : forall i acc k it,
  acc < i -> nth_error items k = Some it -> _id (product it) = pid ->
  i + Z.of_nat k <= scan_from pid items i acc.
Proof.
  induction items as [|it0 rest IH]; intros i acc k it Hlt Hk Hid.
  - destruct k; discriminate.
  - destruct k as [|k]; simpl in Hk |- *.
    + injection Hk as <-; rewrite Hid, String.eqb_refl.
      pose proof (scan_from_ge pid rest (i + 1) i); lia.
    + pose proof (IH (i + 1) (if String.eqb pid (_id (product it0)) then i else acc) k it)
        as H.
      destruct (String.eqb pid (_id (product it0))); (lapply H; [|lia]);
        intros H'; specialize (H' Hk Hid); lia.
Qed.

(** the scan's index is the last entry of the product *)
Lemma find_product_index_last pid items j it :
  nth_error items j = Some it -> _id (product it) = pid ->
  Z.of_nat j <= find_product_index pid items.
Proof.
  intros Hj Hid; pose proof (scan_from_last pid items 0 (-1) j it ltac:(lia) Hj Hid).
  unfold find_product_index; lia.
Qed.

(** C7, as stated: a product in the cart is not enough for the update to
    happen.  Once "p1" is gone from the products collection, updating it
    in Alice's cart throws 400 and its quantity stays 2. *)
Definition db_no_catalogue : DB := mkDB [alice_cart] [] [alice].

Lemma update_frame_counterexample :
  find_cart (user_email alice) (carts db_no_catalogue) = Some alice_cart /\
  In "p1"%string (ids (cartItems alice_cart)) /\
  updateProductInCart alice "p1" 5 db_no_catalogue =
  (Throw (ApiError BAD_REQUEST "Product doesn't exist in database"), db_no_catalogue).
Proof. split; [reflexivity | split; [simpl; auto | reflexivity]]. Qed.

(** C7, amended: for a cart holding the product, [updateProductInCart]
    throws 400 and writes nothing when the product is missing from the
    products collection.  Otherwise it succeeds and changes only the
    quantity of the matched item, to the new value.  The matched item is
    the last entry of that product: no later entry has its id.  The other
    items, their order, the item count, the email and the payment option
    stay as they were, and the saved cart is the new one. *)
Theorem update_frame user pid q db cart :
  find_cart (user_email user) (carts db) = Some cart ->
  In pid (ids (cartItems cart)) ->
  let n := Z.to_nat (find_product_index pid (cartItems cart)) in
  (find_product pid (products db) = None ->
   updateProductInCart user pid q db =
   (Throw (ApiError BAD_REQUEST "Product doesn't exist in database"), db)) /\
  (forall j it', (n < j)%nat -> nth_error (cartItems cart) j = Some it' ->
   _id (product it') <> pid) /\
  (forall p, find_product pid (products db) = Some p ->
   exists cart' db',
    updateProductInCart user pid q db = (Ok cart', db') /\
    find_cart (user_email user) (carts db') = Some cart' /\
    email cart' = email cart /\
    paymentOption cart' = paymentOption cart /\
    length (cartItems cart') = length (cartItems cart) /\
    (exists it, nth_error (cartItems cart) n = Some it /\ _id (product it) = pid /\
                nth_error (cartItems cart') n = Some (mkCartItem (product it) q)) /\
    (forall j, j <> n -> nth_error (cartItems cart') j = nth_error (cartItems cart) j)).
Proof.
  intros Hf Hin n.
  pose proof (find_product_index_present pid _ Hin) as Hpos.
  split; [|split].
  - intros Hp; rewrite (update_found user pid q db cart Hf), Hp; reflexivity.
  - intros j it' Hj Hit Hid.
    pose proof (find_product_index_last pid _ j it' Hit Hid); unfold n in Hj; lia.
  - intros p Hp.
    rewrite (update_found user pid q db cart Hf), Hp.
    replace (find_product_index pid (cartItems cart) =? -1) with false
      by (symmetry; apply Z.eqb_neq; lia).
    eexists _, _; split; [reflexivity|].
    split; [apply find_cart_upsert; exact (find_cart_email _ _ _ Hf)|].
    split; [reflexivity|]; split; [reflexivity|].
    split; [apply length_set_quantity_at|]; simpl.
    split.
    + destruct (find_product_index_hit pid _ Hin) as (it & Hit & Hid).
      exists it; split; [exact Hit|]; split; [exact Hid|].
      fold n; rewrite nth_error_set_quantity_at, Nat.eqb_refl.
      fold n in Hit; rewrite Hit; reflexivity.
    + intros j Hj; fold n; rewrite nth_error_set_quantity_at.
      apply Nat.eqb_neq in Hj; rewrite Hj; reflexivity.
Qed.

(** A cart holding "p1" twice: the update reaches the second entry. *)
Definition dup_cart : Cart :=
  mkCart "alice@qkart" [mkCartItem p1 2; mkCartItem p2 1; mkCartItem p1 4]
         default_payment_option.
Definition db_dup : DB := mkDB [dup_cart] [p1; p2] [alice].

Lemma update_frame_witness :
  let n := 2%nat in
  (find_product "p1" (products db_dup) = None ->
   updateProductInCart alice "p1" 5 db_dup =
   (Throw (ApiError BAD_REQUEST "Product doesn't exist in database"), db_dup)) /\
  (forall j it', (n < j)%nat -> nth_error (cartItems dup_cart) j = Some it' ->
   _id (product it') <> "p1"%string) /\
  (forall p, find_product "p1" (products db_dup) = Some p ->
   exists cart' db',
    updateProductInCart alice "p1" 5 db_dup = (Ok cart', db') /\
    find_cart (user_email alice) (carts db') = Some cart' /\
    email cart' = email dup_cart /\
    paymentOption cart' = paymentOption dup_cart /\
    length (cartItems cart') = length (cartItems dup_cart) /\
    (exists it, nth_error (cartItems dup_cart) n = Some it /\ _id (product it) = "p1"%string /\
                nth_error (cartItems cart') n = Some (mkCartItem (product it) 5)) /\
    (forall j, j <> n -> nth_error (cartItems cart') j = nth_error (cartItems dup_cart) j)).
Proof.
  exact (update_frame alice "p1" 5 db_dup dup_cart eq_refl (or_introl eq_refl)).
Defined.

(** ** Distinct products within a cart *)

Definition cart_ids_distinct (c : Cart) : Prop := NoDup (ids (cartItems c)).

Definition carts_distinct (db : DB) : Prop := Forall cart_ids_distinct (carts db).

Lemma NoDup_snoc {A} (l : list A) x : NoDup l -> ~ In x l -> NoDup (l ++ [x]).
Proof.
  induction l as [|y l IH]; simpl; intros H Hx.
  - constructor; [intros []|constructor].
  - inversion H as [|? ? Hy Hl]; subst.
    constructor.
    + rewrite in_app_iff; intros [Hin|[Hin|[]]]; [exact (Hy Hin)|].
      apply Hx; left; symmetry; exact Hin.
    + apply IH; [exact Hl|]; intros Hin; apply Hx; right; exact Hin.
Qed.

Lemma distinct_found db e cart :
  carts_distinct db -> find_cart e (carts db) = Some cart -> cart_ids_distinct cart.
Proof.
  intros Hd Hf; unfold carts_distinct in Hd; rewrite Forall_forall in Hd.
  apply Hd; eapply find_cart_In; exact Hf.
Qed.

Lemma add_keeps_distinct user pid q db :
  carts_distinct db -> carts_distinct (snd (addProductToCart user pid q db)).
Proof.
  intros Hd.
  destruct (find_cart (user_email user) (carts db)) as [cart|] eqn:Hf.
  - rewrite (add_found user pid q db cart Hf).
    destruct (find_product_index pid (cartItems cart) =? -1) eqn:Ei; [|exact Hd].
    destruct (find_product pid (products db)) as [p|] eqn:Hp; [|exact Hd].
    apply Forall_upsert; [exact Hd|].
    unfold cart_ids_distinct, ids; simpl; rewrite map_app; simpl.
    rewrite (find_product_id _ _ _ Hp).
    apply NoDup_snoc; [exact (distinct_found db _ cart Hd Hf)|].
    apply find_product_index_minus1; apply Z.eqb_eq; exact Ei.
  - rewrite (add_no_cart user pid q db Hf).
    assert (H1 : Forall cart_ids_distinct (carts db ++ [empty_cart user])).
    { apply Forall_app; split; [exact Hd|].
      constructor; [constructor | constructor]. }
    destruct (find_product pid (products db)) as [p|]; simpl; [|exact H1].
    apply Forall_upsert; [exact H1|].
    unfold cart_ids_distinct; simpl; constructor; [intros []|constructor].
Qed.

Lemma update_keeps_distinct user pid q db :
  carts_distinct db -> carts_distinct (snd (updateProductInCart user pid q db)).
Proof.
  intros Hd.
  destruct (find_cart (user_email user) (carts db)) as [cart|] eqn:Hf.
  - rewrite (update_found user pid q db cart Hf).
    destruct (find_product pid (products db)); [|exact Hd].
    destruct (_ =? -1); [exact Hd|].
    apply Forall_upsert; [exact Hd|].
    unfold cart_ids_distinct; simpl; rewrite ids_set_quantity_at.
    exact (distinct_found db _ cart Hd Hf).
  - unfold updateProductInCart, bind, Cart_findOne; simpl; rewrite Hf; exact Hd.
Qed.

Lemma delete_keeps_distinct user pid db :
  carts_distinct db -> carts_distinct (snd (deleteProductFromCart user pid db)).
Proof.
  intros Hd.
  destruct (find_cart (user_email user) (carts db)) as [cart|] eqn:Hf.
  - rewrite (delete_found user pid db cart Hf).
    destruct (_ =? -1); [exact Hd|].
    apply Forall_upsert; [exact Hd|].
    unfold cart_ids_distinct; simpl; rewrite ids_splice1.
    apply NoDup_splice1; exact (distinct_found db _ cart Hd Hf).
  - unfold deleteProductFromCart, bind, Cart_findOne; simpl; rewrite Hf; exact Hd.
Qed.

Lemma checkout_keeps_distinct user db :
  carts_distinct db -> carts_distinct (snd (checkout user db)).
Proof.
  intros Hd.
  destruct (find_cart (user_email user) (carts db)) as [cart|] eqn:Hf.
  - rewrite (checkout_found user db cart Hf).
    destruct (Nat.eqb _ _); [exact Hd|].
    destruct (negb _); [exact Hd|].
    destruct (_ >? _); [exact Hd|].
    apply Forall_upsert; [exact Hd|].
    unfold cart_ids_distinct; simpl; constructor.
  - unfold checkout, bind, Cart_findOne; simpl; rewrite Hf; exact Hd.
Qed.

(** C4: if every stored cart lists each product at most once, so does
    every stored cart after [addProductToCart], [updateProductInCart],
    [deleteProductFromCart] or [checkout], whether the operation succeeds
    or throws; [addProductToCart] only appends a product its scan did not
    find in the cart. *)
Theorem cart_ops_keep_distinct user pid q db :
  carts_distinct db ->
  carts_distinct (snd (addProductToCart user pid q db)) /\
  carts_distinct (snd (updateProductInCart user pid q db)) /\
  carts_distinct (snd (deleteProductFromCart user pid db)) /\
  carts_distinct (snd (checkout user db)).
Proof.
  intros Hd; repeat split.
  - apply add_keeps_distinct; exact Hd.
  - apply update_keeps_distinct; exact Hd.
  - apply delete_keeps_distinct; exact Hd.
  - apply checkout_keeps_distinct; exact Hd.
Qed.

Lemma cart_ops_keep_distinct_witness :
  carts_distinct db_alice /\
  carts_distinct (snd (addProductToCart alice "p3" 1 db_alice)).
Proof.
  assert (Hd : carts_distinct db_alice).
  { unfold carts_distinct, cart_ids_distinct; simpl.
    repeat constructor; simpl; intros H; repeat destruct H as [H|H]; try discriminate; auto. }
  split; [exact Hd|].
  apply (cart_ops_keep_distinct alice "p3" 1 db_alice); exact Hd.
Defined.

(** ** Further properties of the service *)

Lemma find_upsert_other {A} (key : A -> string) (x : A) (l : list A) (k : string) :
  key x <> k ->
  find (fun y => String.eqb (key y) k) (upsert key x l)
  = find (fun y => String.eqb (key y) k) l.
Proof.
  intros Hk; apply String.eqb_neq in Hk.
  induction l as [|y l IH]; simpl.
  - now rewrite Hk.
  - destruct (String.eqb (key y) (key x)) eqn:E; simpl.
    + apply String.eqb_eq in E; rewrite Hk, E, Hk; reflexivity.
    + rewrite IH; reflexivity.
Qed.

Lemma find_cart_upsert_other c e cs :
  email c <> e -> find_cart e (upsert email c cs) = find_cart e cs.
Proof. apply find_upsert_other. Qed.

Lemma find_user_upsert_other u e us :
  user_email u <> e -> find_user e (upsert user_email u us) = find_user e us.
Proof. apply find_upsert_other. Qed.

Lemma find_cart_app_other e cs c :
  email c <> e -> find_cart e (cs ++ [c]) = find_cart e cs.
Proof.
  unfold find_cart; intros He; apply String.eqb_neq in He.
  induction cs as [|c' cs IH]; simpl; [now rewrite He|].
  destruct (String.eqb (email c') e); [reflexivity | exact IH].
Qed.

Lemma with_items_self c : with_items c (cartItems c) = c.
Proof. destruct c; reflexivity. Qed.

Lemma cart_total_from_shift items : forall t,
  cart_total_from t items = t + cart_total items.
Proof.
  induction items as [|it rest IH]; intros t; [unfold cart_total; simpl; lia|].
  unfold cart_total at 1; simpl; fold (cart_total_from 0 rest).
  rewrite (IH (t + _)), (IH (cost (product it) * quantity it)); lia.
Qed.

Lemma cart_total_app l1 l2 :
  cart_total (l1 ++ l2) = cart_total l1 + cart_total l2.
Proof.
  induction l1 as [|it l1 IH]; [reflexivity|].
  simpl app; unfold cart_total at 1 2; simpl.
  rewrite !(cart_total_from_shift _ (cost (product it) * quantity it)), IH; lia.
Qed.

Lemma cart_total_single it : cart_total [it] = cost (product it) * quantity it.
Proof. reflexivity. Qed.

Ltac case_cart user db :=
  let Hf := fresh "Hf" in
  let cart := fresh "cart" in
  destruct (find_cart (user_email user) (carts db)) as [cart|] eqn:Hf.

(** Every operation touches only the calling user's cart, and [checkout]
    only the calling user's user document: the cart (and user) stored
    under any other email is the same before and after, whatever the
    outcome. *)
Theorem ops_frame_other_emails user pid q db e :
  e <> user_email user ->
  find_cart e (carts (snd (addProductToCart user pid q db))) = find_cart e (carts db) /\
  find_cart e (carts (snd (updateProductInCart user pid q db))) = find_cart e (carts db) /\
  find_cart e (carts (snd (deleteProductFromCart user pid db))) = find_cart e (carts db) /\
  find_cart e (carts (snd (checkout user db))) = find_cart e (carts db) /\
  find_user e (users (snd (checkout user db))) = find_user e (users db).
Proof.
  intros He.
  assert (Hc : forall c, email c = user_email user ->
            find_cart e (upsert email c (carts db)) = find_cart e (carts db))
    by (intros c Hc; apply find_cart_upsert_other; congruence).
  case_cart user db.
  - pose proof (find_cart_email _ _ _ Hf) as Hce.
    rewrite (add_found user pid q db cart Hf), (update_found user pid q db cart Hf),
            (delete_found user pid db cart Hf), (checkout_found user db cart Hf).
    repeat split.
    + destruct (_ =? -1); [|reflexivity].
      destruct (find_product pid (products db)); [apply Hc; exact Hce | reflexivity].
    + destruct (find_product pid (products db)); [|reflexivity].
      destruct (_ =? -1); [reflexivity | apply Hc; exact Hce].
    + destruct (_ =? -1); [reflexivity | apply Hc; exact Hce].
    + destruct (Nat.eqb _ _); [reflexivity|]; destruct (negb _); [reflexivity|].
      destruct (_ >? _); [reflexivity | apply Hc; exact Hce].
    + destruct (Nat.eqb _ _); [reflexivity|]; destruct (negb _); [reflexivity|].
      destruct (_ >? _); [reflexivity|].
      apply find_user_upsert_other; simpl; congruence.
  - rewrite (add_no_cart user pid q db Hf).
    unfold updateProductInCart, deleteProductFromCart, checkout, bind, Cart_findOne;
      simpl; rewrite Hf; simpl.
    repeat split.
    destruct (find_product pid (products db)); simpl.
    + rewrite find_cart_upsert_other by (simpl; congruence).
      apply find_cart_app_other; simpl; congruence.
    + apply find_cart_app_other; simpl; congruence.
Qed.

Lemma ops_frame_other_emails_witness :
  "bob@qkart"%string <> user_email alice /\
  find_cart "bob@qkart" (carts (snd (checkout alice (mkDB [alice_cart; bob_cart] [p1; p2] [alice; bob]))))
  = Some bob_cart.
Proof.
  assert (H : "bob@qkart"%string <> user_email alice) by discriminate.
  split; [exact H|].
  apply (ops_frame_other_emails alice "p1" 1 (mkDB [alice_cart; bob_cart] [p1; p2] [alice; bob])
           "bob@qkart" H).
Defined.

(** The service never writes the products collection; only [checkout]
    writes the users collection; [getCartByUser] writes nothing. *)
Theorem ops_keep_catalogue user pid q db :
  products (snd (addProductToCart user pid q db)) = products db /\
  products (snd (updateProductInCart user pid q db)) = products db /\
  products (snd (deleteProductFromCart user pid db)) = products db /\
  products (snd (checkout user db)) = products db /\
  users (snd (addProductToCart user pid q db)) = users db /\
  users (snd (updateProductInCart user pid q db)) = users db /\
  users (snd (deleteProductFromCart user pid db)) = users db /\
  snd (getCartByUser user db) = db.
Proof.
  case_cart user db.
  - rewrite (add_found user pid q db cart Hf), (update_found user pid q db cart Hf),
            (delete_found user pid db cart Hf), (checkout_found user db cart Hf).
    unfold getCartByUser, bind, Cart_findOne; simpl; rewrite Hf.
    split_ifs; repeat split.
  - rewrite (add_no_cart user pid q db Hf).
    unfold getCartByUser, updateProductInCart, deleteProductFromCart, checkout,
      bind, Cart_findOne; simpl; rewrite Hf; simpl.
    destruct (find_product pid (products db)); repeat split.
Qed.

(** A failed [updateProductInCart], [deleteProductFromCart] or [checkout]
    writes nothing; so does a failed [addProductToCart] when the user
    already has a cart (without one, see [add_unknown_product_creates_cart]). *)
Theorem failed_ops_write_nothing user pid q db err :
  (fst (updateProductInCart user pid q db) = Throw err ->
   snd (updateProductInCart user pid q db) = db) /\
  (fst (deleteProductFromCart user pid db) = Throw err ->
   snd (deleteProductFromCart user pid db) = db) /\
  (fst (checkout user db) = Throw err -> snd (checkout user db) = db) /\
  (find_cart (user_email user) (carts db) <> None ->
   fst (addProductToCart user pid q db) = Throw err ->
   snd (addProductToCart user pid q db) = db).
Proof.
  case_cart user db.
  - rewrite (add_found user pid q db cart Hf), (update_found user pid q db cart Hf),
            (delete_found user pid db cart Hf), (checkout_found user db cart Hf).
    repeat split.
    + destruct (find_product pid (products db)); [|reflexivity].
      destruct (_ =? -1); [reflexivity | discriminate].
    + destruct (_ =? -1); [reflexivity | discriminate].
    + destruct (Nat.eqb _ _); [reflexivity|]; destruct (negb _); [reflexivity|].
      destruct (_ >? _); [reflexivity | discriminate].
    + intros _; destruct (_ =? -1); [|reflexivity].
      destruct (find_product pid (products db)); [discriminate | reflexivity].
  - unfold updateProductInCart, deleteProductFromCart, checkout, bind, Cart_findOne;
      simpl; rewrite Hf; simpl.
    repeat split; intros H; congruence.
Qed.

Lemma failed_ops_write_nothing_witness :
  fst (checkout bob db_bob) = Throw (ApiError BAD_REQUEST "Cart is empty") /\
  snd (checkout bob db_bob) = db_bob.
Proof.
  split; [reflexivity|].
  apply (failed_ops_write_nothing bob "p1" 1 db_bob (ApiError BAD_REQUEST "Cart is empty")).
  reflexivity.
Defined.

(** Adding a new product to an existing cart appends one item with the
    catalogue's product and the requested quantity at the end of the list,
    saves that cart, and raises the cart total by cost times quantity. *)
Theorem add_appends user pid q db cart p :
  find_cart (user_email user) (carts db) = Some cart ->
  ~ In pid (ids (cartItems cart)) ->
  find_product pid (products db) = Some p ->
  exists db',
    addProductToCart user pid q db =
      (Ok (with_items cart (cartItems cart ++ [mkCartItem p q])), db') /\
    find_cart (user_email user) (carts db')
      = Some (with_items cart (cartItems cart ++ [mkCartItem p q])) /\
    cart_total (cartItems cart ++ [mkCartItem p q])
      = cart_total (cartItems cart) + cost p * q.
Proof.
  intros Hf Hn Hp.
  rewrite (add_found user pid q db cart Hf), (find_product_index_absent pid _ Hn), Hp.
  eexists; split; [reflexivity|]; split.
  - apply find_cart_upsert; exact (find_cart_email _ _ _ Hf).
  - rewrite cart_total_app; reflexivity.
Qed.

Lemma add_appends_witness :
  exists db',
    addProductToCart alice "p3" 2 (mkDB [alice_cart] [p1; p2; mkProduct "p3" 10] [alice]) =
      (Ok (with_items alice_cart (cartItems alice_cart ++ [mkCartItem (mkProduct "p3" 10) 2])), db') /\
    find_cart (user_email alice) (carts db')
      = Some (with_items alice_cart (cartItems alice_cart ++ [mkCartItem (mkProduct "p3" 10) 2])) /\
    cart_total (cartItems alice_cart ++ [mkCartItem (mkProduct "p3" 10) 2])
      = cart_total (cartItems alice_cart) + cost (mkProduct "p3" 10) * 2.
Proof.
  apply (add_appends alice "p3" 2 (mkDB [alice_cart] [p1; p2; mkProduct "p3" 10] [alice])
           alice_cart (mkProduct "p3" 10));
    [reflexivity | simpl; intros [H|[H|[]]]; discriminate | reflexivity].
Defined.

(** A user without a cart who adds a catalogue product gets a new cart,
    stored under their email, holding just that item and the default
    payment option. *)
Theorem add_creates_cart user pid q db p :
  find_cart (user_email user) (carts db) = None ->
  find_product pid (products db) = Some p ->
  exists db',
    addProductToCart user pid q db =
      (Ok (mkCart (user_email user) [mkCartItem p q] default_payment_option), db') /\
    find_cart (user_email user) (carts db')
      = Some (mkCart (user_email user) [mkCartItem p q] default_payment_option).
Proof.
  intros Hf Hp; rewrite (add_no_cart user pid q db Hf), Hp.
  eexists; split; [reflexivity|].
  apply find_cart_upsert; reflexivity.
Qed.

Lemma add_creates_cart_witness :
  exists db',
    addProductToCart alice "p1" 3 (mkDB [] [p1] []) =
      (Ok (mkCart "alice@qkart" [mkCartItem p1 3] default_payment_option), db') /\
    find_cart "alice@qkart" (carts db')
      = Some (mkCart "alice@qkart" [mkCartItem p1 3] default_payment_option).
Proof. apply (add_creates_cart alice "p1" 3 (mkDB [] [p1] []) p1); reflexivity. Defined.

(** Round trip: the cart returned by a successful add, update or delete is
    the one stored, so a following [getCartByUser] returns it. *)
Theorem saved_cart_read_back user pid q db c :
  (fst (addProductToCart user pid q db) = Ok c ->
   getCartByUser user (snd (addProductToCart user pid q db))
   = (Ok c, snd (addProductToCart user pid q db))) /\
  (fst (updateProductInCart user pid q db) = Ok c ->
   getCartByUser user (snd (updateProductInCart user pid q db))
   = (Ok c, snd (updateProductInCart user pid q db))) /\
  (fst (deleteProductFromCart user pid db) = Ok c ->
   getCartByUser user (snd (deleteProductFromCart user pid db))
   = (Ok c, snd (deleteProductFromCart user pid db))).
Proof.
  assert (Hg : forall db', find_cart (user_email user) (carts db') = Some c ->
             getCartByUser user db' = (Ok c, db'))
    by (intros db' H; unfold getCartByUser, bind, Cart_findOne; simpl; rewrite H; reflexivity).
  case_cart user db.
  - pose proof (find_cart_email _ _ _ Hf) as Hce.
    rewrite (add_found user pid q db cart Hf), (update_found user pid q db cart Hf),
            (delete_found user pid db cart Hf).
    repeat split; split_ifs; simpl; intros H; try discriminate;
      injection H as <-; apply Hg; apply find_cart_upsert; exact Hce.
  - rewrite (add_no_cart user pid q db Hf).
    unfold updateProductInCart, deleteProductFromCart, bind, Cart_findOne;
      simpl; rewrite Hf; simpl.
    repeat split; split_ifs; simpl; intros H; try discriminate.
    injection H as <-; apply Hg; apply find_cart_upsert; reflexivity.
Qed.

Lemma saved_cart_read_back_witness :
  getCartByUser alice (snd (deleteProductFromCart alice "p1" db_alice))
  = (Ok (mkCart "alice@qkart" [mkCartItem p2 1] default_payment_option),
     snd (deleteProductFromCart alice "p1" db_alice)).
Proof.
  apply (saved_cart_read_back alice "p1" 0 db_alice
           (mkCart "alice@qkart" [mkCartItem p2 1] default_payment_option)).
  reflexivity.
Defined.

(** Adding a product that is not yet in the cart and then deleting it
    gives back the original cart, stored as before. *)
Theorem add_then_delete user pid q db cart p :
  find_cart (user_email user) (carts db) = Some cart ->
  ~ In pid (ids (cartItems cart)) ->
  find_product pid (products db) = Some p ->
  exists db'',
    deleteProductFromCart user pid (snd (addProductToCart user pid q db)) = (Ok cart, db'') /\
    find_cart (user_email user) (carts db'') = Some cart.
Proof.
  intros Hf Hn Hp.
  pose proof (find_cart_email _ _ _ Hf) as Hce.
  rewrite (add_found user pid q db cart Hf), (find_product_index_absent pid _ Hn), Hp; simpl.
  set (c1 := with_items cart (cartItems cart ++ [mkCartItem p q])).
  set (db1 := mkDB (upsert email c1 (carts db)) (products db) (users db)).
  assert (Hf1 : find_cart (user_email user) (carts db1) = Some c1)
    by (apply find_cart_upsert; exact Hce).
  rewrite (delete_found user pid db1 c1 Hf1).
  assert (Hidx : find_product_index pid (cartItems c1) = Z.of_nat (length (cartItems cart))).
  { unfold c1; simpl.
    apply (find_product_index_unique pid (cartItems cart) (mkCartItem p q) []);
      [exact (find_product_id _ _ _ Hp)|].
    rewrite app_nil_r; exact Hn. }
  rewrite Hidx.
  replace (Z.of_nat (length (cartItems cart)) =? -1) with false
    by (symmetry; apply Z.eqb_neq; lia).
  rewrite Nat2Z.id.
  assert (Hs : with_items c1 (splice1 (length (cartItems cart)) (cartItems c1)) = cart).
  { unfold c1, with_items; simpl.
    rewrite (splice1_middle (cartItems cart) [] (mkCartItem p q)), app_nil_r.
    destruct cart; reflexivity. }
  rewrite Hs.
  eexists; split; [reflexivity|].
  apply find_cart_upsert; exact Hce.
Qed.

Lemma add_then_delete_witness :
  exists db'',
    deleteProductFromCart alice "p3"
      (snd (addProductToCart alice "p3" 2 (mkDB [alice_cart] [p1; p2; mkProduct "p3" 10] [alice])))
    = (Ok alice_cart, db'') /\
    find_cart (user_email alice) (carts db'') = Some alice_cart.
Proof.
  apply (add_then_delete alice "p3" 2 (mkDB [alice_cart] [p1; p2; mkProduct "p3" 10] [alice])
           alice_cart (mkProduct "p3" 10));
    [reflexivity | simpl; intros [H|[H|[]]]; discriminate | reflexivity].
Defined.

(** A successful delete removes exactly one item of the requested product:
    the list is one shorter and the cart total drops by that item's cost
    times quantity. *)
Theorem delete_removes_one user pid db cart c :
  find_cart (user_email user) (carts db) = Some cart ->
  fst (deleteProductFromCart user pid db) = Ok c ->
  S (length (cartItems c)) = length (cartItems cart) /\
  exists it, In it (cartItems cart) /\ _id (product it) = pid /\
    cart_total (cartItems c) = cart_total (cartItems cart) - cost (product it) * quantity it.
Proof.
  intros Hf Hd; rewrite (delete_found user pid db cart Hf) in Hd.
  destruct (find_product_index pid (cartItems cart) =? -1) eqn:E; [discriminate|].
  injection Hd as <-.
  change (cartItems (with_items cart ?l)) with l.
  assert (Hin : In pid (ids (cartItems cart))).
  { destruct (in_dec String.string_dec pid (ids (cartItems cart))) as [H|H]; [exact H|].
    rewrite (find_product_index_absent pid _ H) in E; discriminate. }
  destruct (find_product_index_hit pid _ Hin) as (it & Hit & Hid).
  destruct (nth_error_split _ _ Hit) as (pre & post & Hl & Hlen).
  rewrite <- Hlen, Hl, splice1_middle.
  split; [rewrite !length_app; simpl; lia|].
  exists it; split; [apply in_or_app; right; left; reflexivity|]; split; [exact Hid|].
  rewrite !cart_total_app.
  change (it :: post) with ([it] ++ post); rewrite cart_total_app, cart_total_single; lia.
Qed.

Lemma delete_removes_one_witness :
  S (length [mkCartItem p2 1]) = length (cartItems alice_cart) /\
  exists it, In it (cartItems alice_cart) /\ _id (product it) = "p1"%string /\
    cart_total [mkCartItem p2 1] = cart_total (cartItems alice_cart) - cost (product it) * quantity it.
Proof.
  apply (delete_removes_one alice "p1" db_alice alice_cart
           (mkCart "alice@qkart" [mkCartItem p2 1] default_payment_option));
    reflexivity.
Defined.

(** For a non-empty cart, checkout first requires the address check
    (failing it gives 400 "Address not set", whatever the balance), then a
    balance of at least the total (otherwise 400 "User has insufficient
    money to process"); both failures write nothing. *)
Theorem checkout_precondition_errors user db cart :
  find_cart (user_email user) (carts db) = Some cart ->
  cartItems cart <> [] ->
  (hasSetNonDefaultAddress user = false ->
   checkout user db = (Throw (ApiError BAD_REQUEST "Address not set"), db)) /\
  (hasSetNonDefaultAddress user = true ->
   walletMoney user < cart_total (cartItems cart) ->
   checkout user db =
   (Throw (ApiError BAD_REQUEST "User has insufficient money to process"), db)).
Proof.
  intros Hf Hne; rewrite (checkout_found user db cart Hf).
  destruct (cartItems cart) as [|it rest]; [congruence|].
  simpl Nat.eqb; cbv iota.
  split; intros Ha; rewrite Ha; simpl negb; cbv iota; [reflexivity|].
  intros Hlt.
  replace (cart_total (it :: rest) >? walletMoney user) with true
    by (symmetry; rewrite Z.gtb_ltb; apply Z.ltb_lt; exact Hlt).
  reflexivity.
Qed.

Lemma checkout_precondition_errors_witness :
  checkout (mkUser "alice@qkart" 10 true) db_alice =
  (Throw (ApiError BAD_REQUEST "User has insufficient money to process"), db_alice).
Proof.
  apply (checkout_precondition_errors (mkUser "alice@qkart" 10 true) db_alice alice_cart);
    [reflexivity | discriminate | reflexivity | vm_compute; reflexivity].
Defined.

(** After a successful checkout, checking out again with the updated user
    fails with 400 "Cart is empty" and writes nothing: the cart is kept
    but emptied, so nothing is charged twice. *)
Theorem checkout_twice user db u' db' :
  checkout user db = (Ok u', db') ->
  checkout u' db' = (Throw (ApiError BAD_REQUEST "Cart is empty"), db').
Proof.
  intros H; case_cart user db.
  - rewrite (checkout_found user db cart Hf) in H.
    destruct (Nat.eqb _ _); [discriminate|]; destruct (negb _); [discriminate|].
    destruct (_ >? _); [discriminate|].
    injection H as <- <-.
    assert (Hf' : find_cart (user_email user)
                    (upsert email (with_items cart []) (carts db)) = Some (with_items cart [])).
    { apply find_cart_upsert; exact (find_cart_email _ _ _ Hf). }
    unfold checkout at 1, bind, Cart_findOne; simpl; rewrite Hf'; reflexivity.
  - unfold checkout, bind, Cart_findOne in H; simpl in H; rewrite Hf in H; discriminate.
Qed.

Lemma checkout_twice_witness :
  checkout (with_wallet alice 70) (snd (checkout alice db_alice))
  = (Throw (ApiError BAD_REQUEST "Cart is empty"), snd (checkout alice db_alice)).
Proof. apply (checkout_twice alice db_alice); reflexivity. Defined.

(** [updateProductInCart] looks the product up in the catalogue before
    looking for it in the cart: an unknown product gives 400 "Product
    doesn't exist in database" even when it is in the cart, and a known
    product missing from the cart gives 400 "Product not in cart"; neither
    writes anything. *)
Theorem update_error_order user pid q db cart :
  find_cart (user_email user) (carts db) = Some cart ->
  (find_product pid (products db) = None ->
   updateProductInCart user pid q db =
   (Throw (ApiError BAD_REQUEST "Product doesn't exist in database"), db)) /\
  (forall p, find_product pid (products db) = Some p ->
   ~ In pid (ids (cartItems cart)) ->
   updateProductInCart user pid q db =
   (Throw (ApiError BAD_REQUEST "Product not in cart"), db)).
Proof.
  intros Hf; rewrite (update_found user pid q db cart Hf); split.
  - intros Hp; rewrite Hp; reflexivity.
  - intros p Hp Hn; rewrite Hp, (find_product_index_absent pid _ Hn); reflexivity.
Qed.

Lemma update_error_order_witness :
  updateProductInCart alice "p1" 5 db_no_catalogue =
  (Throw (ApiError BAD_REQUEST "Product doesn't exist in database"), db_no_catalogue).
Proof. apply (update_error_order alice "p1" 5 db_no_catalogue alice_cart); reflexivity. Defined.
